(** * volatility.framework.contexts: Context and ContextFactory

    A shallow embedding of [volatility/framework/contexts/__init__.py].
    Python objects that are reached through a reference (contexts and
    templates) live in an explicit store; methods are computations in a
    state-and-exception monad in which a raised exception keeps the store
    as it was at the moment of the [raise], as in Python. *)

From stdpp Require Import base option list gmap strings.
From Stdlib Require Import ZArith.

Local Open Scope Z_scope.
Local Open Scope string_scope.
Local Open Scope list_scope.

(** ** Exceptions and the computation monad *)

(** [TypeError], [IndexError] and [AttributeError] are the Python builtins
    the source raises or inherits.  The remaining constructors are the
    framework's own error kinds, named as the specification names them;
    [External] stands for whatever an external collaborator raises. *)
Inductive exn :=
| TypeError (msg : string)
| IndexError (msg : string)
| AttributeError (msg : string)
| LayerAlreadyExists (layer : string)
| LayerDependencyUnmet (layer : string) (missing : list string)
| SymbolNotFound (symbol : string)
| TemplateSpecializationError (structure : string)
| InvalidAddress (layer : string) (offset : Z)
| External (msg : string).

Inductive outcome (A : Type) :=
| Ret (a : A)
| Raise (e : exn).
Arguments Ret {A} a.
Arguments Raise {A} e.

(** A computation over a store [S]: the store is returned on both exits. *)
Definition M (S A : Type) : Type := S -> outcome A * S.

Definition ret {S A} (a : A) : M S A := fun s => (Ret a, s).
Definition raise {S A} (e : exn) : M S A := fun s => (Raise e, s).
Definition bind {S A B} (c : M S A) (k : A -> M S B) : M S B :=
  fun s => match c s with
           | (Ret a, s') => k a s'
           | (Raise e, s') => (Raise e, s')
           end.
Definition modify {S} (f : S -> S) : M S unit := fun s => (Ret tt, f s).
Definition lift_outcome {S A} (o : outcome A) : M S A := fun s => (o, s).

Declare Scope py_scope.
Delimit Scope py_scope with py.
Notation "x <~ c ;; k" := (bind c (fun x => k))
  (at level 100, c at next level, right associativity) : py_scope.
Notation "c ;;; k" := (bind c (fun _ => k))
  (at level 100, right associativity) : py_scope.
Local Open Scope py_scope.

(** ** Data model *)

(** References to store-allocated Python objects. *)
Abbreviation ref := positive.

(** Values of keyword arguments and configuration entries: an integer
    (an array count) or a name (a pointer target). *)
Inductive pval :=
| PInt (z : Z)
| PSym (s : string).

(** [**arguments]: a Python dict from keyword to value. *)
Abbreviation params := (gmap string pval).

(** Modelled from the spec: [interfaces.objects.Template] is defined
    outside this module.  A template is a named type descriptor with a
    declared parameter schema (parameter name to admissible values) and its
    current parameters; a type may encode a length prefix, whose width in
    bytes is then part of the descriptor. *)
Record Template := {
  structure_name : string;
  schema : gmap string (pval -> bool);
  vol : params;
  length_prefix : option Z
}.

(** [interfaces.objects.ObjectInformation(layer_name = .., offset = ..)]:
    the two keywords the source passes, and the optional parent and
    native-layer metadata, which it leaves at their default [None]. *)
Record ObjectInformation := {
  layer_name : string;
  offset : Z;
  parent : option ref;
  native_layer_name : option string
}.

Definition ObjectInformation__init__ (layer_name : string) (offset : Z)
  : ObjectInformation :=
  {| layer_name := layer_name; offset := offset;
     parent := None; native_layer_name := None |}.

(** An object: the context it was built in, where it is bound, and the
    type name and parameters of the template at the time it was built. *)
Record Object := {
  obj_context : ref;
  obj_info : ObjectInformation;
  obj_structure : string;
  obj_vol : params
}.

(** Modelled from the spec: [layers.Memory] and its layers are defined
    outside this module.  A layer has a unique name, the names of the
    layers it translates through, an addressable range and an access
    granularity; a Memory owns a mapping from layer name to layer. *)
Record Layer := {
  name : string;
  dependencies : list string;
  address_range : Z * Z;
  granularity : Z
}.

Record Memory := { _layers : gmap string Layer }.

Definition Memory__init__ : Memory := {| _layers := ∅ |}.

(** Modelled from the spec: [config.ConfigGroup] is defined outside this
    module: an opaque named key/value store. *)
Record ConfigGroup := {
  group_name : string;
  entries : gmap string pval
}.

Definition ConfigGroup__init__ (name : string) : ConfigGroup :=
  {| group_name := name; entries := ∅ |}.

Section Framework.

(** The native type tables live in [volatility.framework.symbols.native],
    which is defined outside this module: the type of tables and the
    constant [native.x86NativeTable] are taken as given. *)
Context {NativeTable : Type}.
Variable x86NativeTable : NativeTable.

(** [Memory.read(layer_name, offset, length)] is defined outside this
    module, with the layers' own reads: it is taken as given, as a function
    of the registry and the address that returns the bytes or raises. *)
Variable Memory_read : Memory -> string -> Z -> Z -> outcome (list Z).

(** Modelled from the spec: [symbols.SymbolSpace] is defined outside this
    module.  A symbol space is constructed with exactly one native
    table and owns a mapping from qualified symbol name to the (shared,
    registered) template, held by reference. *)
Record SymbolSpace := {
  natives : NativeTable;
  _dict : gmap string ref
}.

Definition SymbolSpace__init__ (natives : NativeTable) : SymbolSpace :=
  {| natives := natives; _dict := ∅ |}.

(** [class Context]: the three private attributes set by [__init__]. *)
Record Context := {
  _symbol_space : SymbolSpace;
  _memory : Memory;
  _config : ConfigGroup
}.

(** The store: template objects and context objects, by reference. *)
Record World := {
  templates : gmap ref Template;
  contexts : gmap ref Context
}.

Definition set_contexts (f : gmap ref Context -> gmap ref Context)
  (w : World) : World :=
  {| templates := templates w; contexts := f (contexts w) |}.

(** A (name, expected type, description) triple declared by a modifier. *)
Inductive cfgtype := CfgInt | CfgStr | CfgBool.

Record ConfigOption := {
  option_name : string;
  option_type : cfgtype;
  option_description : string
}.

(** A modifier is an external collaborator: a callable taking the context
    as keyword argument, which may change the store and may raise, and a
    [get_config_options] method. *)
Record Modifier := {
  modifier_name : string;
  get_config_options : list ConfigOption;
  modifier_call : ref -> M World unit
}.

(** The Python values that reach the methods below. *)
Inductive pyval :=
| VNone
| VInt (z : Z)
| VStr (s : string)
| VConfigGroup (g : ConfigGroup)
| VModifier (m : Modifier).

(** [isinstance(value, config.ConfigGroup)] *)
Definition is_ConfigGroup (value : pyval) : bool :=
  match value with VConfigGroup _ => true | _ => false end.

(** Calls made to the external collaborators, in the order they happen. *)
Inductive call :=
| Applied (modifier : string) (context : ref)
| Queried (modifier : string) (options : list ConfigOption).

(** ** Collaborators defined in other modules *)

(** Modelled from the spec: [Memory.add_layer].  Fails with
    [LayerAlreadyExists] if a layer of that name is already registered and
    with [LayerDependencyUnmet] if a declared dependency is not yet
    registered; otherwise the layer becomes queryable by name. *)
Definition add_layer (layer : Layer) : M Memory unit :=
  fun m =>
    if bool_decide (name layer ∈ dom (_layers m)) then
      (Raise (LayerAlreadyExists (name layer)), m)
    else
      match filter (fun d => d ∉ dom (_layers m)) (dependencies layer) with
      | [] => (Ret tt, {| _layers := <[name layer := layer]> (_layers m) |})
      | missing => (Raise (LayerDependencyUnmet (name layer) missing), m)
      end.

(** Modelled from the spec: [SymbolSpace.get_structure].  Returns the
    template registered under the qualified name, and fails with
    [SymbolNotFound] if no registered table defines that name. *)
Definition get_structure (space : SymbolSpace) (structure_name : string)
  : outcome ref :=
  match _dict space !! structure_name with
  | Some t => Ret t
  | None => Raise (SymbolNotFound structure_name)
  end.

(** Parameters are checked against the declared schema: every name must
    be declared and its value admissible. *)
Definition admissible (T : Template) (arguments : params) : bool :=
  forallb (fun kv : string * pval =>
             match schema T !! kv.1 with
             | Some check => check kv.2
             | None => false
             end) (map_to_list arguments).

(** A reference that is not in the store has no Python counterpart. *)
Definition dangling : exn := External "dangling reference".

(** A template like [T] whose parameters are those of [T] with the new
    keyword arguments written over them. *)
Definition updated (T : Template) (new_arguments : params) : Template :=
  {| structure_name := structure_name T;
     schema := schema T;
     vol := new_arguments ∪ vol T;
     length_prefix := length_prefix T |}.

(** Modelled from the spec: [Template.update_vol] is defined outside this
    module.  It takes a template and a mapping of parameter name to value,
    validates the parameters against the declared schema, failing with
    [TemplateSpecializationError], and returns a new, independent template
    that reflects them; the template that was looked up is not mutated. *)
Definition update_vol (self : ref) (new_arguments : params)
  : M World Template :=
  fun w =>
    match templates w !! self with
    | None => (Raise dangling, w)
    | Some T =>
        if admissible T new_arguments then (Ret (updated T new_arguments), w)
        else (Raise (TemplateSpecializationError (structure_name T)), w)
    end.

(** Modelled from the spec: [Template.__call__] is defined outside this
    module.  Binding reads no bytes beyond what establishes the size: none,
    unless the type encodes a length prefix, in which case exactly the
    bytes of the prefix are read, at the place of binding, through the
    memory of the context, and a failing read fails the construction.
    Nothing is changed; the object carries the template's parameters as
    they are when it is built. *)
Definition Template__call__ (self : ref) (context : ref)
  (object_info : ObjectInformation) : M World Object :=
  fun w =>
    match templates w !! self with
    | None => (Raise dangling, w)
    | Some T =>
        let built :=
          {| obj_context := context; obj_info := object_info;
             obj_structure := structure_name T; obj_vol := vol T |} in
        match length_prefix T with
        | None => (Ret built, w)
        | Some width =>
            match contexts w !! context with
            | None => (Raise dangling, w)
            | Some c =>
                match Memory_read (_memory c) (layer_name object_info)
                        (offset object_info) width with
                | Ret _ => (Ret built, w)
                | Raise e => (Raise e, w)
                end
            end
        end
    end.

(** ** class Context *)

(** [Context.__init__(self, natives = symbols.native.x86NativeTable)]:
    [None] is the call without the argument. *)
Definition Context__init__ (natives : option NativeTable) : Context :=
  let natives := default x86NativeTable natives in
  {| _symbol_space := SymbolSpace__init__ natives;
     _memory := Memory__init__;
     _config := ConfigGroup__init__ "volatility" |}.

(** The constructor call [Context(..)]: a new object in the store. *)
Definition new_Context (natives : option NativeTable) : M World ref :=
  fun w =>
    let self := fresh (dom (contexts w)) in
    (Ret self, set_contexts <[self := Context__init__ natives]> w).

Definition deref (self : ref) : M World Context :=
  fun w =>
    match contexts w !! self with
    | Some c => (Ret c, w)
    | None => (Raise dangling, w)
    end.

(** The property getters. *)
Definition Context_config (self : ref) : M World ConfigGroup :=
  c <~ deref self ;; ret (_config c).

Definition Context_symbol_space (self : ref) : M World SymbolSpace :=
  c <~ deref self ;; ret (_symbol_space c).

Definition Context_memory (self : ref) : M World Memory :=
  c <~ deref self ;; ret (_memory c).

(** [@config.setter] *)
Definition Context_config_setter (self : ref) (value : pyval)
  : M World unit :=
  c <~ deref self ;;
  match value with
  | VConfigGroup g =>
      modify (set_contexts
        <[self := {| _symbol_space := _symbol_space c;
                     _memory := _memory c;
                     _config := g |}]>)
  | _ => raise (TypeError "Configuration must of type ConfigGroup")
  end.

(** The specification calls the error of the setter [ConfigTypeMismatch];
    in the source it is this [TypeError]. *)
Definition ConfigTypeMismatch : exn :=
  TypeError "Configuration must of type ConfigGroup".

(** [Context.add_translation_layer]: [self._memory.add_layer(layer)]. *)
Definition Context_add_translation_layer (self : ref) (layer : Layer)
  : M World unit :=
  c <~ deref self ;;
  fun w =>
    let '(r, m) := add_layer layer (_memory c) in
    (r, set_contexts
          <[self := {| _symbol_space := _symbol_space c;
                       _memory := m;
                       _config := _config c |}]> w).

(** [Context.object(self, symbol, layer_name, offset, **arguments)].
    [arguments] holds the keywords other than the method's own parameter
    names: Python rejects a call that passes one of those twice before the
    body runs.  The value of [update_vol] is dropped, as in the expression
    statement of the source, and the template that was looked up is the one
    that is called. *)
Definition Context_object (self : ref) (symbol : string)
  (layer_name : string) (offset : Z) (arguments : params)
  : M World Object :=
  c <~ deref self ;;
  object_template <~ lift_outcome (get_structure (_symbol_space c) symbol) ;;
  update_vol object_template arguments ;;;
  Template__call__ object_template self
    (ObjectInformation__init__ layer_name offset).

(** ** class ContextFactory(validity.ValidityRoutines, list) *)

(** A factory is a Python list; nothing restricts what it holds. *)
Abbreviation ContextFactory := (list pyval).

(** [validity.ValidityRoutines._type_check] is defined outside this
    module: it is taken as given, as a check that inspects the value and
    either passes ([None]) or raises. *)
Variable _type_check : ContextFactory -> pyval -> option exn.

(** The inherited [list.__setitem__] for an integer key: negative keys
    count from the end, a key out of range raises [IndexError]. *)
Definition list__setitem__ {A} (key : Z) (value : A) : M (list A) unit :=
  fun self =>
    let len := Z.of_nat (length self) in
    if bool_decide (0 <= key < len) then
      (Ret tt, <[Z.to_nat key := value]> self)
    else if bool_decide (- len <= key < 0) then
      (Ret tt, <[Z.to_nat (len + key) := value]> self)
    else (Raise (IndexError "list assignment index out of range"), self).

(** The inherited [list.append]. *)
Definition list_append {A} (value : A) : M (list A) unit :=
  fun self => (Ret tt, self ++ [value]).

(** [ContextFactory.__setitem__(self, key, value)] *)
Definition ContextFactory__setitem__ (key : Z) (value : pyval)
  : M ContextFactory unit :=
  (fun self => (from_option Raise (Ret tt) (_type_check self value), self)) ;;;
  list__setitem__ key value.

(** [for x in l: body(x)] *)
Fixpoint for_each {S A} (body : A -> M S unit) (l : list A) : M S unit :=
  match l with
  | [] => ret tt
  | x :: l' => body x ;;; for_each body l'
  end.

(** A computation on the store, run next to the log of external calls. *)
Definition lift_world {A} (c : M World A) : M (World * list call) A :=
  fun s => let '(r, w') := c s.1 in (r, (w', s.2)).

(** [modifier(context = context)]: the call is logged, then made. *)
Definition invoke (modifier : pyval) (context : ref)
  : M (World * list call) unit :=
  fun s =>
    match modifier with
    | VModifier m =>
        let '(r, w') := modifier_call m context s.1 in
        (r, (w', s.2 ++ [Applied (modifier_name m) context]))
    | _ => (Raise (TypeError "object is not callable"), s)
    end.

(** [modifier.get_config_options()]: the call is logged, its value is
    returned. *)
Definition query (modifier : pyval) : M (list call) (list ConfigOption) :=
  fun log =>
    match modifier with
    | VModifier m =>
        (Ret (get_config_options m),
         log ++ [Queried (modifier_name m) (get_config_options m)])
    | _ => (Raise (AttributeError "get_config_options"), log)
    end.

(** [ContextFactory.get_config_requirements(self)]: the loop drops every
    value it obtains, and a body without [return] yields [None]. *)
Definition ContextFactory_get_config_requirements (self : ContextFactory)
  : M (list call) pyval :=
  for_each (fun modifier => query modifier ;;; ret tt) self ;;;
  ret VNone.

(** [ContextFactory.__call__(self)] *)
Definition ContextFactory__call__ (self : ContextFactory)
  : M (World * list call) ref :=
  context <~ lift_world (new_Context (Some x86NativeTable)) ;;
  for_each (fun modifier => invoke modifier context) self ;;;
  ret context.

(** The context at [context] is seeded with the native table [table]. *)
Definition seeded_with (table : NativeTable) (context : ref) (w : World)
  : Prop :=
  natives ∘ _symbol_space <$> contexts w !! context = Some table.

End Framework.

Arguments World : clear implicits.
Arguments Context : clear implicits.
Arguments SymbolSpace : clear implicits.
Arguments Modifier : clear implicits.
Arguments pyval : clear implicits.

(** The builtin values among [pyval]: [None], integers and strings are
    neither callable nor carry a [get_config_options] attribute. *)
Definition plain {NativeTable : Type} (value : pyval NativeTable) : bool :=
  match value with
  | VNone | VInt _ | VStr _ => true
  | VConfigGroup _ | VModifier _ => false
  end.

(** ** A concrete session

    Native tables are identified by name here.  The symbol [Test] names
    an array-like template that declares a non-negative [count] and a
    [target]; the modifiers are named after the modules the source
    imports ([intel], [physical], [windows]). *)
Module Demo.

Definition x86 : string := "x86".

Definition is_count (v : pval) : bool :=
  match v with PInt z => bool_decide (0 <= z) | PSym _ => false end.

Definition is_target (v : pval) : bool :=
  match v with PInt _ => false | PSym _ => true end.

Definition Test : Template :=
  {| structure_name := "Test";
     schema := <["count" := is_count]> (<["target" := is_target]> ∅);
     vol := ∅;
     length_prefix := None |}.

(** Reads within the declared range of a registered layer return zero
    bytes; every other read raises [InvalidAddress]. *)
Definition read (m : Memory) (layer : string) (at_offset width : Z)
  : outcome (list Z) :=
  match _layers m !! layer with
  | Some l =>
      if Z.leb (address_range l).1 at_offset
         && Z.leb (at_offset + width - 1) (address_range l).2
      then Ret (replicate (Z.to_nat width) 0)
      else Raise (InvalidAddress layer at_offset)
  | None => Raise (InvalidAddress layer at_offset)
  end.

Definition physical_layer : Layer :=
  {| name := "physical"; dependencies := [];
     address_range := (0, 4095); granularity := 1 |}.

Definition intel_layer : Layer :=
  {| name := "intel"; dependencies := ["physical"];
     address_range := (0, 4294967295); granularity := 4096 |}.

Definition session : Context string :=
  {| _symbol_space := {| natives := x86; _dict := <["Test" := 1%positive]> ∅ |};
     _memory := {| _layers := <["physical" := physical_layer]> ∅ |};
     _config := ConfigGroup__init__ "volatility" |}.

Definition world : World string :=
  {| templates := <[1%positive := Test]> ∅;
     contexts := <[1%positive := session]> ∅ |}.

Definition empty_world : World string :=
  {| templates := ∅; contexts := ∅ |}.

Definition count3 : params := <["count" := PInt 3]> ∅.
Definition to_process : params := <["target" := PSym "_EPROCESS"]> ∅.

(** A layer over [physical] and a [swap] layer that nobody registered. *)
Definition swapped_layer : Layer :=
  {| name := "swapped"; dependencies := ["physical"; "swap"];
     address_range := (0, 4294967295); granularity := 4096 |}.

Definition location : ConfigOption :=
  {| option_name := "location"; option_type := CfgStr;
     option_description := "where the image is" |}.

Definition physical : Modifier string :=
  {| modifier_name := "physical";
     get_config_options := [location];
     modifier_call := fun context =>
       Context_add_translation_layer context physical_layer |}.

Definition intel : Modifier string :=
  {| modifier_name := "intel";
     get_config_options := [];
     modifier_call := fun context =>
       Context_add_translation_layer context intel_layer |}.

Definition factory : list (pyval string) :=
  [VModifier physical; VModifier intel].

Definition custom_config : ConfigGroup :=
  {| group_name := "custom"; entries := <["dtb" := PInt 1638400]> ∅ |}.

Definition other_config : ConfigGroup :=
  {| group_name := "other"; entries := ∅ |}.

(** A check that accepts modifiers only. *)
Definition modifiers_only (self : list (pyval string)) (value : pyval string)
  : option exn :=
  match value with
  | VModifier _ => None
  | _ => Some (TypeError "expected a modifier")
  end.

End Demo.

(** * Properties *)

Section Properties.

Context {NativeTable : Type}.
Variable x86NativeTable : NativeTable.
Variable Memory_read : Memory -> string -> Z -> Z -> outcome (list Z).

Implicit Types (w : World NativeTable) (c : Context NativeTable).
Implicit Types (self t : ref) (T : Template) (arguments p q : params).

(** ** Store lemmas *)

Lemma set_contexts_id w self c :
  contexts w !! self = Some c ->
  set_contexts <[self := c]> w = w.
Proof.
  intros Hc. destruct w as [ts cs]; unfold set_contexts; cbn in *.
  by rewrite insert_id.
Qed.



(** Arguments that pass the validation do not reach the object. *)
Lemma Context_object_drops_arguments
    w self c symbol t T layer off p q :
  contexts w !! self = Some c ->
  _dict (_symbol_space c) !! symbol = Some t ->
  templates w !! t = Some T ->
  admissible T p = true ->
  admissible T q = true ->
  Context_object Memory_read self symbol layer off p w
  = Context_object Memory_read self symbol layer off q w.
Proof.
  intros Hc Hs Ht Hp Hq.
  unfold Context_object, bind, deref, lift_outcome, get_structure,
    update_vol.
  by rewrite Hc, Hs, Ht, Hp, Hq.
Qed.

(** A read that fails while the length prefix is established fails the
    construction, with that error, and nothing has changed. *)
Lemma Context_object_failing_read
    w self c symbol t T layer off arguments width e :
  contexts w !! self = Some c ->
  _dict (_symbol_space c) !! symbol = Some t ->
  templates w !! t = Some T ->
  admissible T arguments = true ->
  length_prefix T = Some width ->
  Memory_read (_memory c) layer off width = Raise e ->
  Context_object Memory_read self symbol layer off arguments w
  = (Raise e, w).
Proof.
  intros Hc Hs Ht Ha Hp Hr.
  unfold Context_object, bind, deref, lift_outcome, get_structure,
    update_vol, Template__call__.
  rewrite Hc, Hs, Ht, Ha, Ht, Hp, Hc. cbn. by rewrite Hr.
Qed.

(** ** Context.object *)

(** C6.  For a symbol that no registered table defines, [Context.object]
    fails with [SymbolNotFound], raised by the lookup: no object is
    built, and the store is left as it was. *)
Theorem Context_object_unknown_symbol
    w self c symbol layer off arguments :
  contexts w !! self = Some c ->
  _dict (_symbol_space c) !! symbol = None ->
  get_structure (_symbol_space c) symbol = Raise (SymbolNotFound symbol) /\
  Context_object Memory_read self symbol layer off arguments w
  = (Raise (SymbolNotFound symbol), w).
Proof.
  intros Hc Hs.
  unfold Context_object, bind, deref, lift_outcome, get_structure.
  by rewrite Hc, Hs.
Qed.

(** C10.  Whenever [Context.object] returns, the object was built with
    the context the method was called on, and with an object information
    whose layer name and offset are the arguments as passed, and whose
    parent and native layer are unset. *)
Theorem Context_object_information
    w self symbol layer off arguments o w' :
  Context_object Memory_read self symbol layer off arguments w
  = (Ret o, w') ->
  obj_context o = self /\
  layer_name (obj_info o) = layer /\
  offset (obj_info o) = off /\
  parent (obj_info o) = None /\
  native_layer_name (obj_info o) = None.
Proof.
  unfold Context_object, bind, deref, lift_outcome, get_structure,
    update_vol, Template__call__.
  destruct (contexts w !! self) as [c|]; [|discriminate].
  destruct (_dict (_symbol_space c) !! symbol) as [t|]; [|discriminate].
  destruct (templates w !! t) as [T|] eqn:Ht; [|discriminate].
  destruct (admissible T arguments); [|discriminate].
  cbn. rewrite Ht.
  destruct (length_prefix T) as [width|]; [|by intros [= <- _]].
  destruct (contexts w !! self) as [c'|]; [|discriminate].
  destruct (Memory_read _ _ _ _); [|discriminate].
  by intros [= <- _].
Qed.


(** ** The configuration property *)

Lemma Context_config_setter_accepts w self c g :
  contexts w !! self = Some c ->
  exists w',
    Context_config_setter self (VConfigGroup g) w = (Ret tt, w') /\
    Context_config self w' = (Ret g, w').
Proof.
  intros Hc. eexists. split.
  - unfold Context_config_setter, bind, deref. rewrite Hc. reflexivity.
  - unfold Context_config, bind, deref; cbn. by rewrite lookup_insert_eq.
Qed.

(** C7.  Assigning to [context.config] a value that is not a
    [ConfigGroup] fails with the setter's type error, and the configuration
    held before is still the one [context.config] returns, in an unchanged
    store. *)
Theorem Context_config_setter_rejects w self c (value : pyval NativeTable) :
  contexts w !! self = Some c ->
  is_ConfigGroup value = false ->
  Context_config_setter self value w = (Raise ConfigTypeMismatch, w) /\
  Context_config self w = (Ret (_config c), w).
Proof.
  intros Hc Hv. split.
  - unfold Context_config_setter, bind, deref. rewrite Hc.
    by destruct value.
  - unfold Context_config, bind, deref. by rewrite Hc.
Qed.

(** ** Layer registration *)

Lemma add_layer_failure layer (m : Memory) e m' :
  add_layer layer m = (Raise e, m') -> m' = m.
Proof.
  unfold add_layer. case_bool_decide; [congruence|].
  destruct (filter _ _); congruence.
Qed.

Lemma add_layer_success layer (m : Memory) :
  _layers m !! name layer = None ->
  (forall d, d ∈ dependencies layer -> is_Some (_layers m !! d)) ->
  add_layer layer m
  = (Ret tt, {| _layers := <[name layer := layer]> (_layers m) |}).
Proof.
  intros Hn Hd. unfold add_layer.
  rewrite bool_decide_eq_false_2 by by apply not_elem_of_dom.
  destruct (filter _ _) as [|d missing] eqn:Hf; [done|].
  assert (Hin : d ∈ filter (fun d => d ∉ dom (_layers m)) (dependencies layer))
    by (rewrite Hf; left).
  apply list_elem_of_filter in Hin as [Hout Hin].
  apply Hd, elem_of_dom in Hin. done.
Qed.

Lemma write_back w self c :
  contexts w !! self = Some c ->
  set_contexts
    <[self := {| _symbol_space := _symbol_space c;
                 _memory := _memory c;
                 _config := _config c |}]> w = w.
Proof. intros Hc. destruct c. by apply set_contexts_id. Qed.

(** C5.  Adding a layer whose name is already registered fails with
    [LayerAlreadyExists]; adding a layer (of a new name) that declares a
    dependency not yet registered fails with [LayerDependencyUnmet], which
    names that dependency; whenever the call fails, the store, and with it
    the layer registry, is unchanged, and a layer registered before under
    that name is still the one found there. *)
Theorem Context_add_translation_layer_failure w self c layer :
  contexts w !! self = Some c ->
  (is_Some (_layers (_memory c) !! name layer) ->
   Context_add_translation_layer self layer w
   = (Raise (LayerAlreadyExists (name layer)), w)) /\
  (_layers (_memory c) !! name layer = None ->
   forall d, d ∈ dependencies layer -> _layers (_memory c) !! d = None ->
   exists missing, d ∈ missing /\
     Context_add_translation_layer self layer w
     = (Raise (LayerDependencyUnmet (name layer) missing), w)) /\
  (forall e w',
     Context_add_translation_layer self layer w = (Raise e, w') ->
     w' = w /\
     Context_memory self w' = (Ret (_memory c), w') /\
     forall l, _layers (_memory c) !! name layer = Some l ->
       _layers ∘ _memory <$> contexts w' !! self
       = Some (_layers (_memory c)) /\
       _layers (_memory c) !! name layer = Some l).
Proof.
  intros Hc.
  unfold Context_add_translation_layer, bind, deref. rewrite Hc.
  split; [|split].
  - intros Hin. unfold add_layer.
    rewrite bool_decide_eq_true_2 by by apply elem_of_dom.
    by rewrite write_back.
  - intros Hn d Hd Hout. unfold add_layer.
    rewrite bool_decide_eq_false_2 by by apply not_elem_of_dom.
    destruct (filter _ _) as [|d' missing] eqn:Hf.
    + assert (Hin : d ∈ filter (fun d => d ∉ dom (_layers (_memory c)))
                      (dependencies layer)).
      { apply list_elem_of_filter. split; [by apply not_elem_of_dom|done]. }
      rewrite Hf in Hin. by apply elem_of_nil in Hin.
    + exists (d' :: missing). split.
      * rewrite <- Hf. apply list_elem_of_filter.
        split; [by apply not_elem_of_dom|done].
      * by rewrite write_back.
  - intros e w'.
    destruct (add_layer layer (_memory c)) as [[[]|e'] m] eqn:Hadd;
      [discriminate|].
    apply add_layer_failure in Hadd as ->.
    rewrite write_back by done. intros [= <- <-].
    split; [done|]. split.
    + unfold Context_memory, bind, deref. by rewrite Hc.
    + intros l Hl. by rewrite Hc.
Qed.

(** Once the context is there, a layer of a new name whose dependencies
    are all registered is added and found under its name. *)
Lemma Context_add_translation_layer_success w self c layer :
  contexts w !! self = Some c ->
  _layers (_memory c) !! name layer = None ->
  (forall d, d ∈ dependencies layer -> is_Some (_layers (_memory c) !! d)) ->
  exists w' c',
    Context_add_translation_layer self layer w = (Ret tt, w') /\
    contexts w' !! self = Some c' /\
    _layers (_memory c') !! name layer = Some layer.
Proof.
  intros Hc Hn Hd.
  unfold Context_add_translation_layer, bind, deref. rewrite Hc.
  rewrite add_layer_success by done.
  eexists _, _. split; [reflexivity|]. cbn.
  split; [apply lookup_insert_eq|]. cbn. apply lookup_insert_eq.
Qed.

(** ** ContextFactory.__setitem__ *)

Section SetItem.

Variable _type_check : list (pyval NativeTable) -> pyval NativeTable -> option exn.

(** C8.  [factory[key] = value] checks the value first: when the check
    raises, that exception is the outcome, whatever the key, and the list
    is as it was; when the check passes, the assignment is the inherited
    list assignment.  [append] stores any value without a check. *)
Theorem ContextFactory_setitem_checks
    (self : list (pyval NativeTable)) key (value : pyval NativeTable) :
  (forall e, _type_check self value = Some e ->
     ContextFactory__setitem__ _type_check key value self = (Raise e, self)) /\
  (_type_check self value = None ->
     ContextFactory__setitem__ _type_check key value self
     = list__setitem__ key value self) /\
  list_append value self = (Ret tt, self ++ [value]).
Proof.
  unfold ContextFactory__setitem__, bind.
  split; [|split]; [intros e Hchk|intros Hchk|reflexivity];
    by rewrite Hchk.
Qed.

End SetItem.

(** ** ContextFactory.__call__ and get_config_requirements *)

(** The store after the modifiers [ms] ran one after the other on
    [context], each starting from the store the previous one left. *)
Lemma for_each_invoke (ms : list (Modifier NativeTable)) context :
  forall w log r w' log',
  for_each (fun modifier => invoke modifier context) (VModifier <$> ms)
    (w, log) = (r, (w', log')) ->
  match r with
  | Ret _ =>
      log' = log ++ ((fun m => Applied (modifier_name m) context) <$> ms) /\
      w' = foldl (fun w m => (modifier_call m context w).2) w ms
  | Raise e =>
      exists k m,
        ms !! k = Some m /\
        log' = log ++ ((fun m => Applied (modifier_name m) context)
                         <$> take (S k) ms) /\
        modifier_call m context
          (foldl (fun w m => (modifier_call m context w).2) w (take k ms))
        = (Raise e, w')
  end.
Proof.
  induction ms as [|m ms IH]; intros w log r w' log'; cbn.
  - intros [= <- <- <-]. by rewrite app_nil_r.
  - unfold bind at 1. unfold invoke at 1. cbn.
    destruct (modifier_call m context w) as [[[]|e] w1] eqn:Hm.
    + intros Hrest. apply IH in Hrest.
      destruct r as [[]|e'].
      * destruct Hrest as [-> ->]. cbn. by rewrite <- app_assoc.
      * destruct Hrest as (k & m' & Hk & -> & Hrun).
        exists (S k), m'. cbn. rewrite Hm. by rewrite <- app_assoc.
    + intros [= <- <- <-]. exists 0%nat, m. by rewrite take_0.
Qed.

(** C4.  Calling a factory that holds the modifiers [ms] builds a new
    context, seeded with the default native table, at a reference the
    store did not hold; when the call returns, it returns that reference,
    every modifier was applied to it exactly once, in list order, and the
    store is the one they leave when run one after the other.  When it
    raises, the exception is that of the first modifier that raised, and
    the modifiers up to that one were applied once, in list order. *)
Theorem ContextFactory_call_in_order
    (ms : list (Modifier NativeTable)) w log r w' log' :
  ContextFactory__call__ x86NativeTable (VModifier <$> ms) (w, log)
  = (r, (w', log')) ->
  let context := fresh (dom (contexts w)) in
  let w0 := set_contexts
              <[context := Context__init__ x86NativeTable
                             (Some x86NativeTable)]> w in
  contexts w !! context = None /\
  match r with
  | Ret returned =>
      returned = context /\
      log' = log ++ ((fun m => Applied (modifier_name m) context) <$> ms) /\
      w' = foldl (fun w m => (modifier_call m context w).2) w0 ms
  | Raise e =>
      exists k m,
        ms !! k = Some m /\
        log' = log ++ ((fun m => Applied (modifier_name m) context)
                         <$> take (S k) ms) /\
        modifier_call m context
          (foldl (fun w m => (modifier_call m context w).2) w0 (take k ms))
        = (Raise e, w')
  end.
Proof.
  intros Hcall context w0.
  split; [apply not_elem_of_dom, is_fresh|].
  unfold ContextFactory__call__, bind, lift_world, new_Context in Hcall.
  cbn in Hcall. fold context in Hcall. fold w0 in Hcall.
  destruct (for_each _ _ (w0, log)) as [[[]|e] [w1 log1]] eqn:Hloop;
    apply for_each_invoke in Hloop; injection Hcall as <- <- <-.
  - destruct Hloop as [-> ->]. done.
  - done.
Qed.

(** Every modifier of the list keeps the native table of a context it
    is applied to. *)
Lemma for_each_invoke_seeded (ms : list (Modifier NativeTable)) context :
  (forall m, m ∈ ms -> forall w r w',
     seeded_with x86NativeTable context w ->
     modifier_call m context w = (r, w') ->
     seeded_with x86NativeTable context w') ->
  forall w log r w' log',
  seeded_with x86NativeTable context w ->
  for_each (fun modifier => invoke modifier context) (VModifier <$> ms)
    (w, log) = (r, (w', log')) ->
  seeded_with x86NativeTable context w'.
Proof.
  induction ms as [|m ms IH]; intros Hkeep w log r w' log' Hw; cbn.
  - by intros [= <- <- <-].
  - unfold bind at 1. unfold invoke at 1. cbn.
    destruct (modifier_call m context w) as [[[]|e] w1] eqn:Hm.
    + apply IH.
      * intros m' Hin. apply Hkeep. by right.
      * eapply Hkeep; [left|exact Hw|exact Hm].
    + intros [= <- <- <-]. eapply Hkeep; [left|exact Hw|exact Hm].
Qed.

(** C9.  A context constructed without the [natives] argument is the one
    constructed with the x86 native table, and its symbol space is seeded
    with that table; calling a factory, whatever it holds, first puts that
    same context in the store and only then runs over its elements; and
    when the modifiers are such that each keeps the native table of the
    context it is applied to, the context the factory returns is seeded
    with the x86 table. *)
Theorem Context_seeded_with_x86 :
  Context__init__ x86NativeTable None
  = Context__init__ x86NativeTable (Some x86NativeTable) /\
  natives (_symbol_space (Context__init__ x86NativeTable None))
  = x86NativeTable /\
  (forall (self : list (pyval NativeTable)) w log,
     let context := fresh (dom (contexts w)) in
     let w0 := set_contexts
                 <[context := Context__init__ x86NativeTable None]> w in
     seeded_with x86NativeTable context w0 /\
     ContextFactory__call__ x86NativeTable self (w, log)
     = (for_each (fun modifier => invoke modifier context) self ;;;
        ret context) (w0, log)) /\
  (forall (ms : list (Modifier NativeTable)) w log returned w' log',
     (forall m context, m ∈ ms -> forall w r w',
        seeded_with x86NativeTable context w ->
        modifier_call m context w = (r, w') ->
        seeded_with x86NativeTable context w') ->
     ContextFactory__call__ x86NativeTable (VModifier <$> ms) (w, log)
     = (Ret returned, (w', log')) ->
     seeded_with x86NativeTable returned w').
Proof.
  split; [reflexivity|]. split; [reflexivity|]. split.
  - intros self w log context w0. split; [|reflexivity].
    unfold seeded_with, w0; cbn. by rewrite lookup_insert_eq.
  - intros ms w log returned w' log' Hkeep.
    unfold ContextFactory__call__, bind, lift_world, new_Context. cbn.
    set (context := fresh (dom (contexts w))).
    set (w0 := set_contexts _ w).
    destruct (for_each _ _ (w0, log)) as [[[]|e] [w1 log1]] eqn:Hloop;
      [|discriminate].
    intros [= <- <- <-].
    eapply (for_each_invoke_seeded ms context); [| |exact Hloop].
    + intros m Hin. by apply Hkeep.
    + unfold seeded_with, w0; cbn. by rewrite lookup_insert_eq.
Qed.

(** [get_config_requirements] asks every modifier for its options, in
    list order, and returns [None] whatever they declare. *)
Lemma get_config_requirements_None (ms : list (Modifier NativeTable)) log :
  ContextFactory_get_config_requirements (VModifier <$> ms) log
  = (Ret VNone,
     log ++ ((fun m => Queried (modifier_name m) (get_config_options m))
               <$> ms)).
Proof.
  unfold ContextFactory_get_config_requirements, bind.
  assert (Hloop : forall log,
    for_each (fun modifier : pyval NativeTable => query modifier ;;; ret tt)
      (VModifier <$> ms) log
    = (Ret tt,
       log ++ ((fun m => Queried (modifier_name m) (get_config_options m))
                 <$> ms))).
  { clear log. induction ms as [|m ms IH]; intros log; cbn.
    - by rewrite app_nil_r.
    - unfold bind at 1. cbn. rewrite IH. by rewrite <- app_assoc. }
  by rewrite Hloop.
Qed.

(** [add_translation_layer] never touches the symbol space. *)
Lemma Context_add_translation_layer_seeded
    (table : NativeTable) context self layer w r w' :
  seeded_with table context w ->
  Context_add_translation_layer self layer w = (r, w') ->
  seeded_with table context w'.
Proof.
  unfold Context_add_translation_layer, bind, deref, seeded_with.
  destruct (contexts w !! self) as [c|] eqn:Hc; [|by intros ? [= <- <-]].
  destruct (add_layer layer (_memory c)) as [r1 m].
  intros Hw [= <- <-]. cbn.
  destruct (decide (self = context)) as [->|Hne].
  - rewrite lookup_insert_eq. rewrite Hc in Hw. done.
  - by rewrite lookup_insert_ne.
Qed.

End Properties.

(** * The properties on the concrete session *)


Lemma Context_object_unknown_symbol_witness :
  get_structure (_symbol_space Demo.session) "_EPROCESS"
  = Raise (SymbolNotFound "_EPROCESS") /\
  Context_object Demo.read 1%positive "_EPROCESS" "physical" 0 ∅ Demo.world
  = (Raise (SymbolNotFound "_EPROCESS"), Demo.world).
Proof.
  apply (Context_object_unknown_symbol Demo.read
           Demo.world 1%positive Demo.session "_EPROCESS" "physical" 0 ∅);
    vm_compute; reflexivity.
Defined.

Lemma Context_object_information_witness :
  let run :=
    Context_object Demo.read 1%positive "Test" "physical" 8 Demo.count3
      Demo.world in
  exists o, run.1 = Ret o /\
    obj_context o = 1%positive /\
    layer_name (obj_info o) = "physical" /\
    offset (obj_info o) = 8 /\
    parent (obj_info o) = None /\
    native_layer_name (obj_info o) = None.
Proof.
  intros run.
  exists {| obj_context := 1%positive;
            obj_info := ObjectInformation__init__ "physical" 8;
            obj_structure := "Test";
            obj_vol := ∅ |}.
  split; [vm_compute; reflexivity|].
  apply (Context_object_information Demo.read
           Demo.world 1%positive "Test" "physical" 8 Demo.count3 _ run.2).
  vm_compute; reflexivity.
Defined.


Lemma Context_config_setter_rejects_witness :
  Context_config_setter 1%positive (VInt 5) Demo.world
  = (Raise ConfigTypeMismatch, Demo.world) /\
  Context_config 1%positive Demo.world
  = (Ret (ConfigGroup__init__ "volatility"), Demo.world).
Proof.
  apply (Context_config_setter_rejects
           Demo.world 1%positive Demo.session (VInt 5));
    vm_compute; reflexivity.
Defined.

Lemma Context_add_translation_layer_failure_witness :
  Context_add_translation_layer 1%positive Demo.physical_layer Demo.world
  = (Raise (LayerAlreadyExists "physical"), Demo.world) /\
  exists missing, "swap" ∈ missing /\
    Context_add_translation_layer 1%positive Demo.swapped_layer Demo.world
    = (Raise (LayerDependencyUnmet "swapped" missing), Demo.world).
Proof.
  assert (Hc : contexts Demo.world !! 1%positive = Some Demo.session)
    by (vm_compute; reflexivity).
  split.
  - apply (Context_add_translation_layer_failure
             Demo.world 1%positive Demo.session Demo.physical_layer Hc).
    vm_compute. eexists. reflexivity.
  - apply (Context_add_translation_layer_failure
             Demo.world 1%positive Demo.session Demo.swapped_layer Hc).
    + vm_compute; reflexivity.
    + right. left.
    + vm_compute; reflexivity.
Defined.

Lemma ContextFactory_setitem_checks_witness :
  ContextFactory__setitem__ Demo.modifiers_only 7 VNone Demo.factory
  = (Raise (TypeError "expected a modifier"), Demo.factory) /\
  ContextFactory__setitem__ Demo.modifiers_only (-1)
    (VModifier Demo.physical) Demo.factory
  = (Ret tt, [VModifier Demo.physical; VModifier Demo.physical]) /\
  list_append (@VNone string) Demo.factory
  = (Ret tt, Demo.factory ++ [VNone]).
Proof.
  split; [|split].
  - apply (ContextFactory_setitem_checks
             Demo.modifiers_only Demo.factory 7 VNone).
    reflexivity.
  - rewrite (proj1 (proj2 (ContextFactory_setitem_checks
               Demo.modifiers_only Demo.factory (-1)
               (VModifier Demo.physical)))) by reflexivity.
    reflexivity.
  - apply (ContextFactory_setitem_checks
             Demo.modifiers_only Demo.factory 0 VNone).
Defined.

Lemma ContextFactory_call_in_order_witness :
  exists w',
    ContextFactory__call__ Demo.x86 Demo.factory (Demo.empty_world, [])
    = (Ret 1%positive,
       (w', [Applied "physical" 1%positive; Applied "intel" 1%positive])) /\
    contexts Demo.empty_world !! 1%positive = None /\
    w' = foldl (fun w m => (modifier_call m 1%positive w).2)
           (set_contexts
              <[1%positive := Context__init__ Demo.x86 (Some Demo.x86)]>
              Demo.empty_world)
           [Demo.physical; Demo.intel].
Proof.
  set (run := ContextFactory__call__ Demo.x86 Demo.factory
                (Demo.empty_world, [])).
  exists run.2.1. split; [vm_compute; reflexivity|].
  destruct (ContextFactory_call_in_order Demo.x86
              [Demo.physical; Demo.intel] Demo.empty_world []
              (Ret 1%positive) run.2.1
              [Applied "physical" 1%positive; Applied "intel" 1%positive])
    as (Hfresh & _ & _ & Hw); [vm_compute; reflexivity|].
  split; [exact Hfresh|exact Hw].
Defined.

Lemma Context_seeded_with_x86_witness :
  exists returned w' log',
    ContextFactory__call__ Demo.x86 Demo.factory (Demo.empty_world, [])
    = (Ret returned, (w', log')) /\
    seeded_with Demo.x86 returned w'.
Proof.
  eexists _, _, _. split; [vm_compute; reflexivity|].
  eapply (proj2 (proj2 (proj2 (Context_seeded_with_x86 Demo.x86)))
            [Demo.physical; Demo.intel] Demo.empty_world []).
  - intros m context Hin w r w' Hw.
    apply list_elem_of_In in Hin.
    destruct Hin as [<-|[<-|[]]];
      by apply Context_add_translation_layer_seeded.
  - vm_compute; reflexivity.
Defined.

(** C2.  On a factory whose first modifier declares the option
    [location], [get_config_requirements] asks both modifiers for their
    options and returns [None], not the options. *)
Theorem get_config_requirements_drops_options :
  get_config_options Demo.physical = [Demo.location] /\
  ContextFactory_get_config_requirements Demo.factory []
  = (Ret VNone, [Queried "physical" [Demo.location]; Queried "intel" []]).
Proof.
  split; [reflexivity|].
  apply (get_config_requirements_None [Demo.physical; Demo.intel] []).
Qed.

(** * Further properties of the module *)

Section Further.

Context {NativeTable : Type}.
Variable x86NativeTable : NativeTable.

Implicit Types (w : World NativeTable) (c : Context NativeTable).
Implicit Types (self t : ref) (g : ConfigGroup).

(** ** The configuration property *)

(** X1.  After [context.config = g] with a [ConfigGroup], [context.config]
    returns [g], the symbol space and the memory of the context are the
    ones it had, and nothing else in the store has changed. *)
Theorem Context_config_roundtrip w self c g :
  contexts w !! self = Some c ->
  exists w',
    Context_config_setter self (VConfigGroup g) w = (Ret tt, w') /\
    Context_config self w' = (Ret g, w') /\
    Context_symbol_space self w' = (Ret (_symbol_space c), w') /\
    Context_memory self w' = (Ret (_memory c), w') /\
    templates w' = templates w /\
    forall other, other <> self -> contexts w' !! other = contexts w !! other.
Proof.
  intros Hc. eexists. split.
  - unfold Context_config_setter, bind, deref. rewrite Hc. reflexivity.
  - unfold Context_config, Context_symbol_space, Context_memory, bind, deref.
    cbn. rewrite lookup_insert_eq. repeat split.
    intros other Hne. by rewrite lookup_insert_ne.
Qed.

(** X2.  Of two successive assignments to [context.config] the last one
    wins: the store is the one a single assignment of the second value
    gives.  Assigning the configuration the context already holds changes
    nothing. *)
Theorem Context_config_last_wins w self c g1 g2 :
  contexts w !! self = Some c ->
  exists w1 w2,
    Context_config_setter self (VConfigGroup g1) w = (Ret tt, w1) /\
    Context_config_setter self (VConfigGroup g2) w1 = (Ret tt, w2) /\
    Context_config_setter self (VConfigGroup g2) w = (Ret tt, w2) /\
    Context_config_setter self (VConfigGroup (_config c)) w = (Ret tt, w).
Proof.
  intros Hc.
  assert (Hset : forall g,
    Context_config_setter self (VConfigGroup g) w
    = (Ret tt,
       set_contexts
         <[self := {| _symbol_space := _symbol_space c;
                      _memory := _memory c;
                      _config := g |}]> w)).
  { intros g. unfold Context_config_setter, bind, deref. by rewrite Hc. }
  eexists _, _. split; [apply Hset|]. split; [|split].
  - unfold Context_config_setter, bind, deref, modify. cbn.
    rewrite lookup_insert_eq. cbn. reflexivity.
  - rewrite Hset. unfold set_contexts; cbn. by rewrite insert_insert_eq.
  - rewrite Hset. by rewrite write_back.
Qed.

(** ** Layers *)

(** X4.  A layer of a new name whose dependencies are all registered is
    added: afterwards the registry of the context is the old one with the
    layer under its name, the symbol space, the configuration and the
    templates are untouched, and adding the same layer again fails with
    [LayerAlreadyExists] and changes nothing. *)
Theorem Context_add_translation_layer_then_again w self c layer :
  contexts w !! self = Some c ->
  _layers (_memory c) !! name layer = None ->
  (forall d, d ∈ dependencies layer -> is_Some (_layers (_memory c) !! d)) ->
  exists w' c',
    Context_add_translation_layer self layer w = (Ret tt, w') /\
    contexts w' !! self = Some c' /\
    _layers (_memory c') = <[name layer := layer]> (_layers (_memory c)) /\
    _symbol_space c' = _symbol_space c /\
    _config c' = _config c /\
    templates w' = templates w /\
    Context_add_translation_layer self layer w'
    = (Raise (LayerAlreadyExists (name layer)), w').
Proof.
  intros Hc Hn Hd.
  unfold Context_add_translation_layer at 1. unfold bind, deref.
  rewrite Hc. rewrite add_layer_success by done.
  eexists _, _. split; [reflexivity|]. cbn.
  split; [apply lookup_insert_eq|]. cbn. repeat split.
  unfold Context_add_translation_layer, bind, deref. cbn.
  rewrite lookup_insert_eq. unfold add_layer. cbn.
  rewrite bool_decide_eq_true_2
    by (apply elem_of_dom; rewrite lookup_insert_eq; by eexists).
  unfold set_contexts; cbn. by rewrite insert_insert_eq.
Qed.

Lemma filter_unregistered_empty (l : list string) :
  filter (fun d => d ∉ dom (∅ : gmap string Layer)) l = l.
Proof.
  induction l as [|d l IH]; [done|].
  rewrite filter_cons_True by (rewrite dom_empty_L; set_solver).
  by rewrite IH.
Qed.

(** X5.  On a context that was just constructed no layer is registered:
    a layer without dependencies is added, and a layer with dependencies is
    refused with [LayerDependencyUnmet], which lists all of them, and the
    store stays as the constructor left it. *)
Theorem new_Context_has_no_layers natives layer w self w0 :
  new_Context x86NativeTable natives w = (Ret self, w0) ->
  (dependencies layer = [] ->
   exists w1 c1,
     Context_add_translation_layer self layer w0 = (Ret tt, w1) /\
     contexts w1 !! self = Some c1 /\
     _layers (_memory c1) = <[name layer := layer]> ∅) /\
  (dependencies layer <> [] ->
   Context_add_translation_layer self layer w0
   = (Raise (LayerDependencyUnmet (name layer) (dependencies layer)), w0)).
Proof.
  unfold new_Context. intros [= <- <-].
  set (self := fresh (dom (contexts w))).
  unfold Context_add_translation_layer, bind, deref. cbn.
  rewrite lookup_insert_eq. unfold add_layer. cbn.
  rewrite bool_decide_eq_false_2 by (rewrite dom_empty_L; set_solver).
  rewrite filter_unregistered_empty.
  split.
  - intros ->. eexists _, _. split; [reflexivity|]. cbn.
    split; [apply lookup_insert_eq|done].
  - intros Hne. destruct (dependencies layer) as [|d ds]; [done|].
    unfold set_contexts; cbn. by rewrite insert_insert_eq.
Qed.

(** ** ContextFactory *)

Section SetItemFurther.

Variable _type_check :
  list (pyval NativeTable) -> pyval NativeTable -> option exn.

(** X6.  When the check passes and the key is within [-len, len), the
    assignment returns; the list keeps its length, holds the value at the
    position the key denotes (the key itself, or counted from the end when
    negative, which is the key modulo the length), and is unchanged at every
    other position. *)
Theorem ContextFactory_setitem_in_range
    (self : list (pyval NativeTable)) key (value : pyval NativeTable) :
  _type_check self value = None ->
  - Z.of_nat (length self) <= key < Z.of_nat (length self) ->
  exists updated_list,
    ContextFactory__setitem__ _type_check key value self = (Ret tt, updated_list) /\
    length updated_list = length self /\
    updated_list !! Z.to_nat (key `mod` Z.of_nat (length self)) = Some value /\
    forall j, j <> Z.to_nat (key `mod` Z.of_nat (length self)) ->
              updated_list !! j = self !! j.
Proof.
  intros Hchk Hkey.
  unfold ContextFactory__setitem__, bind. rewrite Hchk. cbn.
  unfold list__setitem__.
  set (len := Z.of_nat (length self)) in *.
  destruct (decide (0 <= key)) as [Hpos|Hneg].
  - rewrite bool_decide_eq_true_2 by lia.
    rewrite Z.mod_small by lia.
    eexists. split; [reflexivity|]. split; [apply length_insert|].
    split.
    + apply list_lookup_insert_eq. unfold len in *. lia.
    + intros j Hj. by apply list_lookup_insert_ne.
  - rewrite bool_decide_eq_false_2 by lia.
    rewrite bool_decide_eq_true_2 by lia.
    assert (Hmod : key `mod` len = len + key).
    { rewrite <- (Z.mod_small (len + key) len) by lia.
      replace (len + key) with (key + 1 * len) by lia.
      by rewrite Z.mod_add by lia. }
    rewrite Hmod.
    eexists. split; [reflexivity|]. split; [apply length_insert|].
    split.
    + apply list_lookup_insert_eq. unfold len in *. lia.
    + intros j Hj. by apply list_lookup_insert_ne.
Qed.

(** X7.  When the check passes and the key is outside [-len, len), the
    assignment raises [IndexError] and the list is unchanged; so no
    assignment to an empty factory ever returns. *)
Theorem ContextFactory_setitem_out_of_range
    (self : list (pyval NativeTable)) key (value : pyval NativeTable) :
  _type_check self value = None ->
  key < - Z.of_nat (length self) \/ Z.of_nat (length self) <= key ->
  ContextFactory__setitem__ _type_check key value self
  = (Raise (IndexError "list assignment index out of range"), self).
Proof.
  intros Hchk Hkey.
  unfold ContextFactory__setitem__, bind. rewrite Hchk. cbn.
  unfold list__setitem__.
  rewrite bool_decide_eq_false_2 by lia.
  by rewrite bool_decide_eq_false_2 by lia.
Qed.

End SetItemFurther.

Lemma ContextFactory_call_returns_fresh
    (self : list (pyval NativeTable)) w log returned w' log' :
  ContextFactory__call__ x86NativeTable self (w, log)
  = (Ret returned, (w', log')) ->
  returned = fresh (dom (contexts w)).
Proof.
  unfold ContextFactory__call__, bind, lift_world, new_Context. cbn.
  destruct (for_each _ _ _) as [[[]|e] s1]; [|discriminate].
  by intros [= <- _].
Qed.

(** X8.  Two calls of factories, one after the other, return different
    contexts: the second context is new to the store the first call left,
    in which the first context lives. *)
Theorem ContextFactory_call_twice_distinct
    (self1 self2 : list (pyval NativeTable)) w log first w1 log1 second w2 log2 :
  ContextFactory__call__ x86NativeTable self1 (w, log)
  = (Ret first, (w1, log1)) ->
  is_Some (contexts w1 !! first) ->
  ContextFactory__call__ x86NativeTable self2 (w1, log1)
  = (Ret second, (w2, log2)) ->
  second <> first /\ contexts w !! first = None /\ contexts w1 !! second = None.
Proof.
  intros H1 Hlive H2.
  apply ContextFactory_call_returns_fresh in H1, H2.
  assert (Hnew1 : contexts w !! first = None)
    by (subst first; apply not_elem_of_dom, is_fresh).
  assert (Hnew2 : contexts w1 !! second = None)
    by (subst second; apply not_elem_of_dom, is_fresh).
  split; [|done].
  intros ->. rewrite Hnew2 in Hlive. by destruct Hlive.
Qed.

Lemma for_each_invoke_plain
    (l : list (pyval NativeTable)) (value : pyval NativeTable) context :
  value ∈ l -> plain value = true ->
  forall s, exists e s',
    for_each (fun modifier => invoke modifier context) l s = (Raise e, s').
Proof.
  intros Hin Hplain.
  induction l as [|x l IH]; [by apply elem_of_nil in Hin|].
  intros s. cbn. unfold bind at 1.
  destruct (invoke x context s) as [[[]|e] s1] eqn:Hx; [|by eexists _, _].
  apply elem_of_cons in Hin as [<-|Hin]; [|by apply IH].
  unfold invoke in Hx. destruct value; try discriminate Hplain;
    discriminate Hx.
Qed.

Lemma for_each_query_plain
    (l : list (pyval NativeTable)) (value : pyval NativeTable) :
  value ∈ l -> plain value = true ->
  forall log, exists log',
    for_each (fun modifier : pyval NativeTable => query modifier ;;; ret tt)
      l log
    = (Raise (AttributeError "get_config_options"), log').
Proof.
  intros Hin Hplain.
  induction l as [|x l IH]; [by apply elem_of_nil in Hin|].
  intros log. cbn. unfold bind at 1. unfold bind at 1.
  destruct x as [| | | |m]; cbn; try by eexists.
  apply elem_of_cons in Hin as [->|Hin]; [discriminate Hplain|].
  by apply IH.
Qed.

(** X9.  [append] takes [None], an integer or a string without any check;
    from then on calling the factory always raises, and so does
    [get_config_requirements], with [AttributeError]. *)
Theorem ContextFactory_append_plain_breaks
    (self : list (pyval NativeTable)) (value : pyval NativeTable) :
  plain value = true ->
  exists updated_list,
    list_append value self = (Ret tt, updated_list) /\
    (forall s, exists e s',
       ContextFactory__call__ x86NativeTable updated_list s = (Raise e, s')) /\
    (forall log, exists log',
       ContextFactory_get_config_requirements updated_list log
       = (Raise (AttributeError "get_config_options"), log')).
Proof.
  intros Hplain. eexists. split; [reflexivity|].
  assert (Hin : value ∈ self ++ [value]) by set_solver.
  split.
  - intros s.
    unfold ContextFactory__call__, bind, lift_world, new_Context. cbn.
    edestruct (for_each_invoke_plain (self ++ [value]) value) as (e & s' & ->);
      [done..|].
    by eexists _, _.
  - intros log. unfold ContextFactory_get_config_requirements, bind.
    edestruct (for_each_query_plain (self ++ [value]) value) as (log' & ->);
      [done..|].
    by eexists.
Qed.

End Further.

(** * The further properties on the concrete session *)

Lemma Context_config_roundtrip_witness :
  exists w',
    Context_config_setter 1%positive (VConfigGroup Demo.custom_config)
      Demo.world = (Ret tt, w') /\
    Context_config 1%positive w' = (Ret Demo.custom_config, w') /\
    Context_symbol_space 1%positive w'
    = (Ret (_symbol_space Demo.session), w') /\
    Context_memory 1%positive w' = (Ret (_memory Demo.session), w') /\
    templates w' = templates Demo.world /\
    forall other, other <> 1%positive ->
                  contexts w' !! other = contexts Demo.world !! other.
Proof.
  apply (Context_config_roundtrip
           Demo.world 1%positive Demo.session Demo.custom_config).
  vm_compute; reflexivity.
Defined.

Lemma Context_config_last_wins_witness :
  exists w1 w2,
    Context_config_setter 1%positive (VConfigGroup Demo.custom_config)
      Demo.world = (Ret tt, w1) /\
    Context_config_setter 1%positive (VConfigGroup Demo.other_config) w1
    = (Ret tt, w2) /\
    Context_config_setter 1%positive (VConfigGroup Demo.other_config)
      Demo.world = (Ret tt, w2) /\
    Context_config_setter 1%positive (VConfigGroup (_config Demo.session))
      Demo.world = (Ret tt, Demo.world).
Proof.
  apply (Context_config_last_wins
           Demo.world 1%positive Demo.session
           Demo.custom_config Demo.other_config).
  vm_compute; reflexivity.
Defined.

Lemma Context_add_translation_layer_then_again_witness :
  exists w' c',
    Context_add_translation_layer 1%positive Demo.intel_layer Demo.world
    = (Ret tt, w') /\
    contexts w' !! 1%positive = Some c' /\
    _layers (_memory c')
    = <["intel" := Demo.intel_layer]> (_layers (_memory Demo.session)) /\
    _symbol_space c' = _symbol_space Demo.session /\
    _config c' = _config Demo.session /\
    templates w' = templates Demo.world /\
    Context_add_translation_layer 1%positive Demo.intel_layer w'
    = (Raise (LayerAlreadyExists "intel"), w').
Proof.
  apply (Context_add_translation_layer_then_again
           Demo.world 1%positive Demo.session Demo.intel_layer).
  - vm_compute; reflexivity.
  - vm_compute; reflexivity.
  - intros d Hd. apply list_elem_of_In in Hd as [<-|[]].
    vm_compute. by eexists.
Defined.

Lemma new_Context_has_no_layers_witness :
  let made := new_Context Demo.x86 None Demo.empty_world in
  (exists w1 c1,
     Context_add_translation_layer 1%positive Demo.physical_layer made.2
     = (Ret tt, w1) /\
     contexts w1 !! 1%positive = Some c1 /\
     _layers (_memory c1) = <["physical" := Demo.physical_layer]> ∅) /\
  Context_add_translation_layer 1%positive Demo.intel_layer made.2
  = (Raise (LayerDependencyUnmet "intel" ["physical"]), made.2).
Proof.
  intros made. split.
  - apply (new_Context_has_no_layers Demo.x86 None Demo.physical_layer
             Demo.empty_world 1%positive made.2);
      [vm_compute; reflexivity|reflexivity].
  - apply (new_Context_has_no_layers Demo.x86 None Demo.intel_layer
             Demo.empty_world 1%positive made.2);
      [vm_compute; reflexivity|discriminate].
Defined.

Lemma ContextFactory_setitem_in_range_witness :
  exists after,
    ContextFactory__setitem__ Demo.modifiers_only (-2)
      (VModifier Demo.intel) Demo.factory = (Ret tt, after) /\
    length after = 2%nat /\
    after !! 0%nat = Some (VModifier Demo.intel) /\
    forall j, j <> 0%nat -> after !! j = Demo.factory !! j.
Proof.
  apply (ContextFactory_setitem_in_range Demo.modifiers_only
           Demo.factory (-2) (VModifier Demo.intel));
    [reflexivity|unfold Demo.factory; cbn; lia].
Defined.

Lemma ContextFactory_setitem_out_of_range_witness :
  ContextFactory__setitem__ Demo.modifiers_only 2
    (VModifier Demo.intel) Demo.factory
  = (Raise (IndexError "list assignment index out of range"), Demo.factory)
  /\
  ContextFactory__setitem__ Demo.modifiers_only 0
    (VModifier Demo.intel) []
  = (Raise (IndexError "list assignment index out of range"), []).
Proof.
  split.
  - apply (ContextFactory_setitem_out_of_range Demo.modifiers_only
             Demo.factory 2 (VModifier Demo.intel));
      [reflexivity|right; unfold Demo.factory; cbn; lia].
  - apply (ContextFactory_setitem_out_of_range Demo.modifiers_only
             [] 0 (VModifier Demo.intel));
      [reflexivity|right; unfold Demo.factory; cbn; lia].
Defined.

Lemma ContextFactory_call_twice_distinct_witness :
  let first := ContextFactory__call__ Demo.x86 Demo.factory
                 (Demo.empty_world, []) in
  let second := ContextFactory__call__ Demo.x86 [] first.2 in
  first.1 = Ret 1%positive /\ second.1 = Ret 2%positive /\
  2%positive <> 1%positive /\
  contexts Demo.empty_world !! 1%positive = None /\
  contexts first.2.1 !! 2%positive = None.
Proof.
  intros first second.
  split; [vm_compute; reflexivity|]. split; [vm_compute; reflexivity|].
  apply (ContextFactory_call_twice_distinct Demo.x86 Demo.factory []
           Demo.empty_world [] 1%positive first.2.1 first.2.2
           2%positive second.2.1 second.2.2).
  - vm_compute; reflexivity.
  - vm_compute. by eexists.
  - vm_compute; reflexivity.
Defined.

Lemma ContextFactory_append_plain_breaks_witness :
  exists after,
    list_append (VStr "windows") Demo.factory = (Ret tt, after) /\
    (forall s, exists e s',
       ContextFactory__call__ Demo.x86 after s = (Raise e, s')) /\
    (forall log, exists log',
       ContextFactory_get_config_requirements after log
       = (Raise (AttributeError "get_config_options"), log')).
Proof.
  apply (ContextFactory_append_plain_breaks Demo.x86 Demo.factory
           (VStr "windows")).
  reflexivity.
Defined.

